(** * MeOS information-service client: card number to bib number and relay leg

    Shallow embedding of [utils/meos_info_service.py] (and of the thin
    adapter [startlistsources/start_list_source_meos.py]) together with the
    properties of the lookup and of the endpoint verification.

    Python values are modelled as follows.
    - [str] is [string]; a card number or URL is the byte string that goes on
      the wire.
    - An [xml.etree.ElementTree.Element] is a record with its tag in Clark
      notation, its attribute dict as a [gmap], its text and its children in
      document order.
    - An exception is a value of [exception]; code that may raise returns a
      [result]; code that also talks to the network lives in the monad [Py],
      whose state is the list of the URLs the client has set out to request
      so far.
    - Calls to the logger have no influence on any returned value and are
      left out. *)

From stdpp Require Import base option list gmap strings.
From Stdlib Require Import Ascii.

Local Open Scope string_scope.
Local Open Scope list_scope.

(** ** Exceptions and results *)

Inductive exc_class :=
  | ValueError | KeyError | AttributeError | IndexError | SyntaxError
  | HTTPError | URLError | ParseError | LookupError | UnicodeDecodeError
  | OperationalError | OtherException.

Global Instance exc_class_eq_dec : EqDecision exc_class.
Proof. solve_decision. Defined.

(** [exc_str] is what [str(e)] gives. *)
Record exception := PyExc { exc_type : exc_class; exc_str : string }.

Global Instance exception_eq_dec : EqDecision exception.
Proof. solve_decision. Defined.

Inductive result (A : Type) :=
  | Ok (a : A)
  | Raise (e : exception).
Arguments Ok {A} a.
Arguments Raise {A} e.

Global Instance result_ret : MRet result := fun _ a => Ok a.
Global Instance result_bind : MBind result := fun _ _ f m =>
  match m with
  | Ok a => f a
  | Raise e => Raise e
  end.

(** ** The element tree *)

#[warnings="-register-all"]
Inductive Element := mkElement {
  tag : string;
  attrib : gmap string string;
  text : option string;
  children : list Element
}.

Definition DEFAULT_RESPONSE_ENCODING : string := "utf-8".
Definition NS : gmap string string := {[ "ns" := "http://www.melin.nu/mop" ]}.

(** Splits ["prefix:local"] at its first colon. *)
Fixpoint split_prefix (s : string) : option (string * string) :=
  match s with
  | EmptyString => None
  | String c rest =>
      if Ascii.eqb c ":"%char then Some (EmptyString, rest)
      else match split_prefix rest with
           | Some (p, l) => Some (String c p, l)
           | None => None
           end
  end.

(** ElementPath's translation of a prefixed name to Clark notation,
    ["{uri}local"].  A name without prefix is matched as it is.  An unknown
    prefix is a [SyntaxError] in Python; every selector of this program uses
    the prefix [ns] with the map [NS]. *)
Definition clark (selector : string) (ns : gmap string string) : result string :=
  match split_prefix selector with
  | None => Ok selector
  | Some (p, l) =>
      match ns !! p with
      | Some uri => Ok ("{" +:+ uri +:+ "}" +:+ l)
      | None => Raise (PyExc SyntaxError ("prefix '" +:+ p +:+ "' not found in prefix map"))
      end
  end.

(** [Element.findall(path, ns)] and [Element.find(path, ns)] for a path that
    is one plain name, as are all the paths of this program ([ns:Status],
    [ns:Team], [ns:Leg], [ns:competition], [ns:Competitor]): the direct
    children with that tag, in document order, and the first of them.  The
    wildcard, predicates and paths of several steps of ElementPath are outside
    this model. *)
Definition has_tag (t : string) (e : Element) : bool := String.eqb (tag e) t.

Definition findall (e : Element) (selector : string) (ns : gmap string string)
  : result (list Element) :=
  t ← clark selector ns; Ok (List.filter (has_tag t) (children e)).

Definition find (e : Element) (selector : string) (ns : gmap string string)
  : result (option Element) :=
  t ← clark selector ns; Ok (List.find (has_tag t) (children e)).

(** [d[key]] on a dict of strings. *)
Definition getitem (d : gmap string string) (key : string) : result string :=
  match d !! key with
  | Some v => Ok v
  | None => Raise (PyExc KeyError ("'" +:+ key +:+ "'"))
  end.

(** ** [_get_data] *)

Definition _get_data (element : Element) (selector : string) (ns : gmap string string)
  : result (option string) :=
  data ← find element selector ns;
  match data with
  | Some data => Ok (text data)
  | None => Ok None
  end.

(** ** [MeosInfoService._has_no_result] *)

Definition _has_no_result (runner : Element) : result bool :=
  statusElem ← find runner "ns:Status" NS;
  match statusElem with
  | None => Ok false
  | Some statusElem =>
      status ← getitem (attrib statusElem) "code";
      if String.eqb status "0" then Ok true else Ok false
  end.

(** ** Responses, URLs and the outside world *)

(** What the program reads of an HTTP response: the charset parameter of its
    content-type header ([response.info().get_content_charset()], [None] when
    the header or the parameter is missing) and its body
    ([response.read()]). *)
Record Response := mkResponse {
  content_charset : option string;
  body : list Byte.byte
}.

(** Modelled from the spec: the URL type of the library imurl, which is not part
    of the sources.  Section 4.1 describes it as an endpoint with an ordered list
    of key/value query parameters; [set_query] appends a parameter and keeps
    the existing ones, and the rendered URL carries every parameter
    percent-encoded. *)
Record Url := mkUrl {
  endpoint : string;
  query : list (string * string)
}.

Definition set_query (u : Url) (key value : string) : Url :=
  {| endpoint := endpoint u; query := query u ++ [(key, value)] |}.

(** Modelled from the spec: percent-encoding.  The unreserved characters of
    RFC 3986 stand for themselves, every other byte becomes [%XX]. *)
Definition unreserved (c : ascii) : bool :=
  let n := nat_of_ascii c in
  (((65 <=? n) && (n <=? 90)) || ((97 <=? n) && (n <=? 122))
   || ((48 <=? n) && (n <=? 57))
   || (n =? 45) || (n =? 46) || (n =? 95) || (n =? 126))%nat.

Definition hex_digit (n : nat) : ascii :=
  if (n <? 10)%nat then ascii_of_nat (48 + n) else ascii_of_nat (55 + n).

Definition hex_value (c : ascii) : nat :=
  let n := nat_of_ascii c in
  if ((48 <=? n) && (n <=? 57))%nat then n - 48 else n - 55.

Definition quote_char (c : ascii) : string :=
  if unreserved c then String c EmptyString
  else String "%"%char (String (hex_digit (nat_of_ascii c / 16))
                     (String (hex_digit (nat_of_ascii c mod 16)) EmptyString)).

Fixpoint quote (s : string) : string :=
  match s with
  | EmptyString => EmptyString
  | String c rest => quote_char c +:+ quote rest
  end.

Fixpoint unquote (s : string) : string :=
  match s with
  | EmptyString => EmptyString
  | String c rest =>
      if Ascii.eqb c "%"%char then
        match rest with
        | String h (String l rest') =>
            String (ascii_of_nat (16 * hex_value h + hex_value l)) (unquote rest')
        | _ => String c rest
        end
      else String c (unquote rest)
  end.

Definition encode_param (kv : string * string) : string :=
  quote kv.1 +:+ "=" +:+ quote kv.2.

Fixpoint join (sep : string) (l : list string) : string :=
  match l with
  | [] => EmptyString
  | [x] => x
  | x :: rest => x +:+ sep +:+ join sep rest
  end.

(** Modelled from the spec: the property [url] of an imurl URL, the complete
    request URL. *)
Definition url_str (u : Url) : string :=
  match query u with
  | [] => endpoint u
  | q => endpoint u +:+ "?" +:+ join "&" (encode_param <$> q)
  end.

(** Modelled from the spec: [VerificationResult] of [utils.config_definitions],
    which is not part of the sources; the spec's VerificationOutcome.  A result
    built without [status] reports success. *)
Record VerificationResult := mkVerificationResult {
  message : string;
  status : bool
}.

Definition VerificationResult_ok (msg : string) : VerificationResult :=
  {| message := msg; status := true |}.

(** The dict returned by a successful lookup. *)
Record PreWarningData := mkPreWarningData {
  bibNumber : string;
  relayLeg : option string
}.

Record MeosInfoService := mkMeosInfoService {
  meos_url : option string;
  is_relay : option bool
}.

(** ** The monad of the network code

    The state is the list of URLs for which a request has been issued. *)
Definition Py (A : Type) : Type := list string -> result A * list string.

Global Instance Py_ret : MRet Py := fun _ a reqs => (Ok a, reqs).
Global Instance Py_bind : MBind Py := fun _ _ f m reqs =>
  match m reqs with
  | (Ok a, reqs') => f a reqs'
  | (Raise e, reqs') => (Raise e, reqs')
  end.

Definition lift {A} (r : result A) : Py A := fun reqs => (r, reqs).
Definition raise {A} (e : exception) : Py A := lift (Raise e).

(** [next(filter(f, l), None)]: [filter] is lazy, so [f] runs on the elements
    in order up to the first one it accepts, and an exception of [f] ends the
    scan. *)
Fixpoint next_filter {A} (f : A -> result bool) (l : list A) : result (option A) :=
  match l with
  | [] => Ok None
  | x :: rest =>
      b ← f x;
      if b : bool then Ok (Some x) else next_filter f rest
  end.

(** [l[i]] on a list. *)
Definition getitem_list {A} (l : list A) (i : nat) : result A :=
  match l !! i with
  | Some x => Ok x
  | None => Raise (PyExc IndexError "list index out of range")
  end.

(** [str(x)] inside an f-string, for a value that is a string or [None]. *)
Definition format_opt (x : option string) : string :=
  match x with
  | Some s => s
  | None => "None"
  end.

Definition dquote : string := String (ascii_of_nat 34) EmptyString.

(** ** The client *)

Section Client.

(** The libraries and the network the client runs against:
    - [URL s], the imurl constructor, parses a string or raises;
    - [urlopen u] stands for [urlopen(Request(u))]: a response, or the
      exception raised while building or sending the request; the two are
      not told apart, so an entry of the request log is a URL the client set
      out to request, also when [Request] itself rejected it and nothing
      was sent;
    - [decode b enc] is [b.decode(enc)];
    - [fromstring s] is [ElementTree.fromstring(s)]. *)
Variable URL : string -> result Url.
Variable urlopen : string -> result Response.
Variable decode : list Byte.byte -> string -> result string.
Variable fromstring : string -> result Element.

Definition urlopen_py (u : string) : Py Response :=
  fun reqs => (urlopen u, reqs ++ [u]).

(** *** [_verify_info_service_url] *)

(** The body of the [try] block, up to the message of the result. *)
Definition verify_try (url : option string) : Py string :=
  match url with
  | None => raise (PyExc ValueError "Info service URL must be configured.")
  | Some url =>
      url ← lift (URL url);
      let url := set_query url "get" "competition" in
      response ← urlopen_py (url_str url);
      let response_encoding :=
        match content_charset response with
        | None => DEFAULT_RESPONSE_ENCODING
        | Some enc => enc
        end in
      data ← lift (decode (body response) response_encoding);
      root ← lift (fromstring data);
      compName ← lift (_get_data root "ns:competition" NS);
      mret ("URL is valid. Found competition " +:+ dquote
              +:+ format_opt compName +:+ dquote +:+ ".")
  end.

(** [try: ... except Exception as e: return VerificationResult(message=str(e),
    status=False)].  Every exception of this model is an [Exception]. *)
Definition _verify_info_service_url (url : option string)
  : list string -> VerificationResult * list string :=
  fun reqs =>
    match verify_try url reqs with
    | (Ok msg, reqs') => (VerificationResult_ok msg, reqs')
    | (Raise e, reqs') => ({| message := exc_str e; status := false |}, reqs')
    end.

(** *** [MeosInfoService.get_event_race_pre_warning_data] *)

(** Lines 150 to 178: from the configured URL to the parsed document.  The
    three [except] clauses around the request log the exception and raise it
    again. *)
Definition fetch_root (self : MeosInfoService) (card_number : string) : Py Element :=
  match meos_url self with
  | None => raise (PyExc ValueError "MeOS Info server URL must be configured.")
  | Some meos_url =>
      url ← lift (URL meos_url);
      let url := set_query url "lookup" "competitor" in
      let url := set_query url "card" card_number in
      response ← urlopen_py (url_str url);
      let response_encoding :=
        match content_charset response with
        | None => DEFAULT_RESPONSE_ENCODING
        | Some enc => enc
        end in
      data ← lift (decode (body response) response_encoding);
      lift (fromstring data)
  end.

(** Lines 187 to 193: the runner the result is read from; [None] is what
    [next] falls back to. *)
Definition select_runner (runners : list Element) : result (option Element) :=
  if decide (1 < length runners) then next_filter _has_no_result runners
  else runner ← getitem_list runners 0; Ok (Some runner).

(** Lines 195 to 207.  [runner.find] on [None] is an [AttributeError]. *)
Definition read_runner (runner : option Element) : result (option PreWarningData) :=
  match runner with
  | None => Raise (PyExc AttributeError "'NoneType' object has no attribute 'find'")
  | Some runner =>
      teamElem ← find runner "ns:Team" NS;
      match teamElem with
      | None => Ok None
      | Some teamElem =>
          bib_number ← getitem (attrib teamElem) "id";
          relay_leg ← _get_data runner "ns:Leg" NS;
          Ok (Some {| bibNumber := bib_number; relayLeg := relay_leg |})
      end
  end.

(** Lines 180 to 207: from the parsed document to the result. *)
Definition resolve (root : Element) : result (option PreWarningData) :=
  runners ← findall root "ns:Competitor" NS;
  if decide (length runners = 0) then Ok None
  else runner ← select_runner runners; read_runner runner.

Definition get_event_race_pre_warning_data (self : MeosInfoService) (card_number : string)
  : Py (option PreWarningData) :=
  root ← fetch_root self card_number; lift (resolve root).

(** *** [StartListSourceMeos.lookup_from_card_number] *)

Record StartListSourceMeos := mkStartListSourceMeos {
  meos_info_service : MeosInfoService;
  _running : bool
}.

Definition lookup_from_card_number (self : StartListSourceMeos) (card_number : string)
  : Py (option PreWarningData) :=
  if negb (_running self) then mret None
  else fun reqs =>
    match get_event_race_pre_warning_data (meos_info_service self) card_number reqs with
    | (Raise e, reqs') =>
        if decide (exc_type e = OperationalError) then (Ok None, reqs')
        else (Raise e, reqs')
    | r => r
    end.

End Client.

(** ** Sample documents and a sample world *)

Module Samples.

Definition mop (local : string) : string := "{http://www.melin.nu/mop}" +:+ local.

Definition status_elem (code : string) : Element :=
  mkElement (mop "Status") {[ "code" := code ]} None [].
Definition status_without_code : Element :=
  mkElement (mop "Status") ∅ None [].
Definition team_elem (id : string) : Element :=
  mkElement (mop "Team") {[ "id" := id ]} None [].
Definition leg_elem (leg : string) : Element :=
  mkElement (mop "Leg") ∅ (Some leg) [].
Definition competitor (kids : list Element) : Element :=
  mkElement (mop "Competitor") ∅ None kids.
Definition competition_elem (name : string) : Element :=
  mkElement (mop "competition") ∅ (Some name) [].
Definition document (kids : list Element) : Element :=
  mkElement (mop "MOPComplete") ∅ None kids.

(** A world in which every URL parses to itself, every request is answered
    without a charset, every body decodes, and the body always parses to
    [root]. *)
Definition URL (s : string) : result Url := Ok {| endpoint := s; query := [] |}.
Definition urlopen (u : string) : result Response :=
  Ok {| content_charset := None; body := [] |}.
Definition decode (b : list Byte.byte) (enc : string) : result string :=
  Ok (String.string_of_list_byte b).
Definition fromstring (root : Element) (s : string) : result Element := Ok root.

Definition service : MeosInfoService :=
  {| meos_url := Some "http://localhost:2009/meos"; is_relay := None |}.
Definition unconfigured : MeosInfoService :=
  {| meos_url := None; is_relay := None |}.

Definition lookup (root : Element) (card_number : string) :=
  get_event_race_pre_warning_data URL urlopen decode (fromstring root) service card_number [].

Definition finished_leg1 : Element :=
  competitor [status_elem "1"; team_elem "7"; leg_elem "1"].
Definition finished_leg2 : Element :=
  competitor [status_elem "2"; team_elem "7"; leg_elem "2"].
Definition running_leg2 : Element :=
  competitor [status_elem "0"; team_elem "7"; leg_elem "2"].
Definition codeless_leg1 : Element :=
  competitor [status_without_code; team_elem "7"; leg_elem "1"].
Definition running_teamless : Element :=
  competitor [status_elem "0"; leg_elem "2"].
Definition statusless : Element :=
  competitor [team_elem "7"; leg_elem "3"].
Definition bib42_leg2 : Element :=
  competitor [status_elem "1"; team_elem "42"; leg_elem "2"].

Definition one_runner : Element := document [bib42_leg2].
Definition no_runner : Element := document [competition_elem "Relay"].
Definition finished_then_running : Element :=
  document [finished_leg1; running_leg2].
Definition both_finished : Element :=
  document [finished_leg1; finished_leg2].
Definition codeless_then_running : Element :=
  document [codeless_leg1; running_leg2].
Definition running_without_team : Element :=
  document [finished_leg1; running_teamless].

Definition team_without_id : Element := mkElement (mop "Team") ∅ None [].
Definition runner_with_idless_team : Element :=
  competitor [status_elem "0"; team_without_id; leg_elem "1"].
Definition runner_without_leg : Element :=
  competitor [status_elem "0"; team_elem "15"].
Definition plain_competitor : Element :=
  mkElement "Competitor" ∅ None [team_elem "7"].
Definition idless_team_document : Element := document [runner_with_idless_team].
Definition no_leg_document : Element := document [finished_leg1; runner_without_leg].
Definition foreign_document : Element :=
  document [plain_competitor; competition_elem "Relay"].
Definition running_source : StartListSourceMeos :=
  {| meos_info_service := service; _running := true |}.

(** A server that advertises a charset. *)
Definition urlopen_latin1 (u : string) : result Response :=
  Ok {| content_charset := Some "iso-8859-1"; body := [] |}.

End Samples.

(** ** Life cycle of [StartListSourceMeos]

    The methods of [start_list_source_meos.py] that act on the source itself.
    The constructor receives the [MeosInfoService] instance it stores;
    [_parse_config] is [pass]. *)

Module Source.

Definition __init__ (service : MeosInfoService) : StartListSourceMeos :=
  {| meos_info_service := service; _running := false |}.

Definition _parse_config (self : StartListSourceMeos) : StartListSourceMeos := self.

Definition update (self : StartListSourceMeos) : StartListSourceMeos :=
  _parse_config self.

Definition start (self : StartListSourceMeos) : StartListSourceMeos :=
  update {| meos_info_service := meos_info_service self; _running := true |}.

Definition stop (self : StartListSourceMeos) : StartListSourceMeos :=
  {| meos_info_service := meos_info_service self; _running := false |}.

Definition is_running (self : StartListSourceMeos) : bool := _running self.

Definition on_modified (self : StartListSourceMeos) : StartListSourceMeos := self.

Definition config_updated (self : StartListSourceMeos) (section_names : list string)
  : StartListSourceMeos :=
  update self.

Definition __repr__ (self : StartListSourceMeos) : string :=
  "StartListSourceMeos(running=" +:+ (if _running self then "True" else "False") +:+ ")".

(** A call of one of the state-changing methods, and a sequence of calls
    made on a source one after the other. *)
Inductive call :=
  | Start
  | Stop
  | OnModified
  | ConfigUpdated (section_names : list string)
  | Update.

Definition perform (self : StartListSourceMeos) (c : call) : StartListSourceMeos :=
  match c with
  | Start => start self
  | Stop => stop self
  | OnModified => on_modified self
  | ConfigUpdated section_names => config_updated self section_names
  | Update => update self
  end.

Definition perform_all (calls : list call) (self : StartListSourceMeos)
  : StartListSourceMeos :=
  fold_left perform calls self.

End Source.

(** ** Worlds in which a stage of the lookup fails *)

Module Failing.

Definition refused : exception :=
  PyExc URLError "<urlopen error [Errno 111] Connection refused>".
Definition not_found : exception := PyExc HTTPError "HTTP Error 404: Not Found".
Definition bad_url : exception := PyExc ValueError "invalid url".
Definition bad_charset : exception := PyExc LookupError "unknown encoding: x-none".
Definition bad_xml : exception :=
  PyExc ParseError "syntax error: line 1, column 0".

Definition URL (s : string) : result Url := Raise bad_url.
Definition urlopen (u : string) : result Response := Raise refused.
Definition decode (b : list Byte.byte) (enc : string) : result string :=
  Raise bad_charset.
Definition fromstring (s : string) : result Element := Raise bad_xml.

End Failing.

(** ** Vocabulary of the statements

    The first child of an element with a given local name in the MOP
    namespace, the status code [Competitor/Status/@code] and the competition
    name of a document, written without reference to the client. *)

Definition child (e : Element) (local : string) : option Element :=
  List.find (has_tag ("{http://www.melin.nu/mop}" +:+ local)) (children e).

Definition status_code (runner : Element) : option string :=
  s ← child runner "Status"; attrib s !! "code".

Definition competition_name (root : Element) : option string :=
  c ← child root "competition"; text c.

(** The [Competitor] elements of a document, in document order. *)
Definition competitors (root : Element) : list Element :=
  List.filter (has_tag "{http://www.melin.nu/mop}Competitor") (children root).

(** A runner is passed over by the scan when it has no [Status] child, or
    when its [Status] carries a code other than ["0"]. *)
Definition passed_over (runner : Element) : Prop :=
  child runner "Status" = None
  \/ exists code, status_code runner = Some code /\ code <> "0".

(** The URL a lookup of [card_number] requests from the endpoint [base]. *)
Definition lookup_url (base : Url) (card_number : string) : string :=
  url_str (set_query (set_query base "lookup" "competitor") "card" card_number).

(** * Properties *)

(** ** Percent-encoding and URL construction *)

Lemma unquote_quote_char c s : unquote (quote_char c +:+ s) = String c (unquote s).
Proof.
  destruct c as [[] [] [] [] [] [] [] []]; reflexivity.
Qed.

Lemma unquote_quote s : unquote (quote s) = s.
Proof.
  induction s as [|c s IH]; [reflexivity|].
  cbn [quote]. rewrite unquote_quote_char. by rewrite IH.
Qed.

Lemma quote_inj s1 s2 : quote s1 = quote s2 -> s1 = s2.
Proof.
  intros H. rewrite <- (unquote_quote s1), <- (unquote_quote s2). by rewrite H.
Qed.

Lemma string_app_assoc (a b c : string) : (a +:+ b) +:+ c = a +:+ (b +:+ c).
Proof.
  induction a as [|x a IH]; [reflexivity|].
  exact (f_equal (String x) IH).
Qed.

Lemma join_snoc sep (l : list string) x :
  l ≠ [] -> join sep (l ++ [x]) = join sep l +:+ sep +:+ x.
Proof.
  induction l as [|y l IH]; [done|]. intros _.
  destruct l as [|z l]; [reflexivity|].
  change (join sep ((y :: z :: l) ++ [x]))
    with (y +:+ sep +:+ join sep ((z :: l) ++ [x])).
  rewrite IH by done.
  change (join sep (y :: z :: l)) with (y +:+ sep +:+ join sep (z :: l)).
  by rewrite !string_app_assoc.
Qed.

Lemma lookup_url_eq base card :
  lookup_url base card =
    endpoint base +:+ "?"
      +:+ join "&" (encode_param <$> (query base ++ [("lookup", "competitor")]))
      +:+ "&" +:+ "card=" +:+ quote card.
Proof.
  unfold lookup_url, url_str, set_query. cbn [query endpoint].
  destruct ((query base ++ [("lookup", "competitor")]) ++ [("card", card)])
    as [|p q] eqn:E.
  { by destruct (query base). }
  rewrite <- E, fmap_app.
  change (encode_param <$> [("card", card)]) with [encode_param ("card", card)].
  rewrite join_snoc.
  - reflexivity.
  - rewrite fmap_app. by destruct (encode_param <$> query base).
Qed.

(** ** Element queries *)

Lemma find_Status e : find e "ns:Status" NS = Ok (child e "Status").
Proof. reflexivity. Qed.

Lemma find_Team e : find e "ns:Team" NS = Ok (child e "Team").
Proof. reflexivity. Qed.

Lemma find_Leg e : find e "ns:Leg" NS = Ok (child e "Leg").
Proof. reflexivity. Qed.

Lemma find_competition e : find e "ns:competition" NS = Ok (child e "competition").
Proof. reflexivity. Qed.

(** [_has_no_result] in terms of the status code. *)
Lemma has_no_result_cases runner :
  _has_no_result runner =
    match child runner "Status" with
    | None => Ok false
    | Some s =>
        match attrib s !! "code" with
        | None => Raise (PyExc KeyError "'code'")
        | Some code => Ok (bool_decide (code = "0"))
        end
    end.
Proof.
  unfold _has_no_result. rewrite find_Status. cbn [mbind result_bind].
  destruct (child runner "Status") as [s|]; [|reflexivity].
  unfold getitem. destruct (attrib s !! "code") as [code|]; [|reflexivity].
  cbn [mbind result_bind].
  destruct (String.eqb_spec code "0") as [->|Hne]; [reflexivity|].
  by rewrite bool_decide_eq_false_2.
Qed.

Lemma has_no_result_true runner :
  _has_no_result runner = Ok true <-> status_code runner = Some "0".
Proof.
  rewrite has_no_result_cases. unfold status_code.
  destruct (child runner "Status") as [s|]; cbn; [|split; discriminate].
  destruct (attrib s !! "code") as [code|]; [|split; discriminate].
  split.
  - intros [= H%bool_decide_eq_true]. by subst.
  - intros [= ->]. reflexivity.
Qed.

Lemma has_no_result_false runner :
  _has_no_result runner = Ok false <-> passed_over runner.
Proof.
  rewrite has_no_result_cases. unfold passed_over, status_code.
  destruct (child runner "Status") as [s|]; cbn.
  2:{ split; [by left | done]. }
  destruct (attrib s !! "code") as [code|].
  - split.
    + intros [= H%bool_decide_eq_false]. right. by exists code.
    + intros [[=] | (code' & [= <-] & Hne)]. by rewrite bool_decide_eq_false_2.
  - split; [discriminate|]. intros [[=] | (code' & [=] & _)].
Qed.

(** ** The scan [next(filter(f, l), None)] *)


Lemma next_filter_none {A} (f : A -> result bool) l :
  Forall (fun y => f y = Ok false) l -> next_filter f l = Ok None.
Proof.
  intros H. induction H as [|y l Hy _ IH]; cbn; [done | by rewrite Hy].
Qed.

Lemma next_filter_Some {A} (f : A -> result bool) l x :
  next_filter f l = Ok (Some x) -> x ∈ l /\ f x = Ok true.
Proof.
  induction l as [|y l IH]; cbn; [discriminate|].
  destruct (f y) as [[]|e] eqn:Hy; cbn.
  - intros [= <-]. split; [left | done].
  - intros H. destruct (IH H). split; [by right | done].
  - discriminate.
Qed.

(** ** Exceptions of the scan and the reading of a runner *)

Lemma has_no_result_raises_cases runner e :
  _has_no_result runner = Raise e ->
  e = PyExc KeyError "'code'"
  /\ exists s, child runner "Status" = Some s /\ attrib s !! "code" = None.
Proof.
  rewrite has_no_result_cases.
  destruct (child runner "Status") as [s|]; [|discriminate].
  destruct (attrib s !! "code") as [code|] eqn:Hcode; [discriminate|].
  intros [= <-]. split; [reflexivity|]. by exists s.
Qed.

Lemma has_no_result_raises_when runner s :
  child runner "Status" = Some s -> attrib s !! "code" = None ->
  _has_no_result runner = Raise (PyExc KeyError "'code'").
Proof. intros Hs Hcode. by rewrite has_no_result_cases, Hs, Hcode. Qed.

Lemma next_filter_raise {A} (f : A -> result bool) pre x post e :
  Forall (fun y => f y = Ok false) pre -> f x = Raise e ->
  next_filter f (pre ++ x :: post) = Raise e.
Proof.
  intros Hpre Hx. induction Hpre as [|y pre Hy _ IH]; cbn.
  - by rewrite Hx.
  - by rewrite Hy.
Qed.

Lemma read_runner_cases r :
  read_runner (Some r) =
    match child r "Team" with
    | None => Ok None
    | Some team =>
        match attrib team !! "id" with
        | None => Raise (PyExc KeyError "'id'")
        | Some bib =>
            Ok (Some {| bibNumber := bib; relayLeg := child r "Leg" ≫= text |})
        end
    end.
Proof.
  unfold read_runner, _get_data, getitem. rewrite find_Team, find_Leg.
  cbn [mbind result_bind].
  destruct (child r "Team") as [team|]; [|reflexivity].
  destruct (attrib team !! "id") as [bib|]; [|reflexivity].
  cbn [mbind result_bind]. by destruct (child r "Leg").
Qed.

(** ** The lookup *)

Section ClientProperties.

Variable URL : string -> result Url.
Variable urlopen : string -> result Response.
Variable decode : list Byte.byte -> string -> result string.
Variable fromstring : string -> result Element.

Local Abbreviation fetch := (fetch_root URL urlopen decode fromstring).
Local Abbreviation lookup := (get_event_race_pre_warning_data URL urlopen decode fromstring).
Local Abbreviation verify := (_verify_info_service_url URL urlopen decode fromstring).
Local Abbreviation verify_body := (verify_try URL urlopen decode fromstring).
Local Abbreviation adapter := (lookup_from_card_number URL urlopen decode fromstring).

Lemma findall_Competitor root :
  findall root "ns:Competitor" NS = Ok (competitors root).
Proof. reflexivity. Qed.

Lemma lookup_of_root self card reqs reqs' root :
  fetch self card reqs = (Ok root, reqs') ->
  lookup self card reqs = (resolve root, reqs').
Proof.
  intros H. unfold get_event_race_pre_warning_data, mbind, Py_bind.
  by rewrite H.
Qed.

Lemma resolve_eq root :
  resolve root =
    if decide (length (competitors root) = 0) then Ok None
    else runner ← select_runner (competitors root); read_runner runner.
Proof. unfold resolve. by rewrite findall_Competitor. Qed.

Lemma select_runner_single r : select_runner [r] = Ok (Some r).
Proof. reflexivity. Qed.

Lemma select_runner_many runners :
  1 < length runners -> select_runner runners = next_filter _has_no_result runners.
Proof. intros H. unfold select_runner. by rewrite decide_True. Qed.

(** When several runners carry the card and the scan passes over all of them,
    the lookup ends in the [AttributeError] of [None.find]. *)
Lemma resolve_all_passed_over root :
  1 < length (competitors root) ->
  Forall passed_over (competitors root) ->
  resolve root =
    Raise (PyExc AttributeError "'NoneType' object has no attribute 'find'").
Proof.
  intros Hlen Hall. rewrite resolve_eq, decide_False by lia.
  rewrite select_runner_many by done.
  rewrite next_filter_none; [reflexivity|].
  eapply Forall_impl; [exact Hall|]. intros x. apply has_no_result_false.
Qed.


(** C3. A response without any [Competitor] element gives the absent result
    and raises nothing. *)
Theorem lookup_no_competitor self card reqs reqs' root :
  fetch self card reqs = (Ok root, reqs') ->
  competitors root = [] ->
  lookup self card reqs = (Ok None, reqs').
Proof.
  intros Hfetch Hnone.
  rewrite (lookup_of_root _ _ _ _ _ Hfetch), resolve_eq, Hnone.
  reflexivity.
Qed.

(** C4. A response with exactly one [Competitor] element: the result is read
    from that competitor, whatever its status: it is absent when the
    competitor has no [Team], and otherwise carries the id of its [Team] as
    bib number and the text of its [Leg] as relay leg; when its team has id
    "42" and its leg has text "2" the result is bibNumber "42", relayLeg
    "2". *)
Theorem lookup_single_competitor self card reqs reqs' root r :
  fetch self card reqs = (Ok root, reqs') ->
  competitors root = [r] ->
  lookup self card reqs = (read_runner (Some r), reqs')
  /\ (child r "Team" = None -> lookup self card reqs = (Ok None, reqs'))
  /\ (forall team bib,
        child r "Team" = Some team -> attrib team !! "id" = Some bib ->
        lookup self card reqs =
          (Ok (Some {| bibNumber := bib; relayLeg := child r "Leg" ≫= text |}),
           reqs'))
  /\ (forall team leg,
        child r "Team" = Some team -> attrib team !! "id" = Some "42" ->
        child r "Leg" = Some leg -> text leg = Some "2" ->
        lookup self card reqs =
          (Ok (Some {| bibNumber := "42"; relayLeg := Some "2" |}), reqs')).
Proof.
  intros Hfetch Hone.
  assert (Hres : lookup self card reqs = (read_runner (Some r), reqs')).
  { rewrite (lookup_of_root _ _ _ _ _ Hfetch), resolve_eq, Hone.
    reflexivity. }
  repeat split; [done | | |].
  - intros Hteam. by rewrite Hres, read_runner_cases, Hteam.
  - intros team bib Hteam Hid. by rewrite Hres, read_runner_cases, Hteam, Hid.
  - intros team leg Hteam Hid Hleg Htext.
    rewrite Hres, read_runner_cases, Hteam, Hid, Hleg. cbn. by rewrite Htext.
Qed.

(** C5. When the competitor the lookup selects has no [Team] child, the
    result is absent and nothing is raised. *)
Theorem lookup_selected_without_team self card reqs reqs' root r :
  fetch self card reqs = (Ok root, reqs') ->
  select_runner (competitors root) = Ok (Some r) ->
  child r "Team" = None ->
  lookup self card reqs = (Ok None, reqs').
Proof.
  intros Hfetch Hsel Hteam.
  rewrite (lookup_of_root _ _ _ _ _ Hfetch), resolve_eq.
  destruct (decide (length (competitors root) = 0)); [done|].
  rewrite Hsel. cbn [mbind result_bind]. unfold read_runner.
  rewrite find_Team. cbn [mbind result_bind]. by rewrite Hteam.
Qed.

(** ** Requests and decoding *)

(** Once the endpoint parses, a lookup issues exactly one request, for
    [lookup_url]. *)
Lemma lookup_requests self u base card reqs :
  meos_url self = Some u -> URL u = Ok base ->
  (lookup self card reqs).2 = reqs ++ [lookup_url base card].
Proof.
  intros Hu Hbase.
  unfold get_event_race_pre_warning_data, fetch_root, lookup_url.
  rewrite Hu. unfold mbind, Py_bind, lift, urlopen_py. rewrite Hbase.
  destruct (urlopen _) as [resp|e]; [|reflexivity].
  destruct (decode _ _) as [data|e]; [|reflexivity].
  by destruct (fromstring data).
Qed.

(** C7. A lookup made while no base URL is configured raises the
    [ValueError] of the configuration check to its caller, and that before any
    request is issued; the start list source hands the error on. *)
Theorem lookup_unconfigured_raises self card reqs :
  meos_url self = None ->
  lookup self card reqs =
    (Raise (PyExc ValueError "MeOS Info server URL must be configured."), reqs)
  /\ (forall source,
        meos_info_service source = self -> _running source = true ->
        adapter source card reqs =
          (Raise (PyExc ValueError "MeOS Info server URL must be configured."), reqs)).
Proof.
  intros Hnone.
  assert (H : lookup self card reqs =
    (Raise (PyExc ValueError "MeOS Info server URL must be configured."), reqs)).
  { unfold get_event_race_pre_warning_data, fetch_root. by rewrite Hnone. }
  split; [done|].
  intros source <- Hrun. unfold lookup_from_card_number.
  rewrite Hrun. cbn [negb]. by rewrite H.
Qed.

(** C8. The body of a response is decoded with the charset its content-type
    header advertises, and with UTF-8 when it advertises none: the lookup
    resolves the document parsed from that text, and the verification reports
    on the document parsed from that text, or on the exception raised while
    decoding or parsing it. *)
Theorem body_decoded_with_advertised_charset reqs :
  (forall self u base card resp,
     meos_url self = Some u -> URL u = Ok base ->
     urlopen (lookup_url base card) = Ok resp ->
     lookup self card reqs =
       (data ← decode (body resp)
                 match content_charset resp with
                 | Some enc => enc
                 | None => "utf-8"
                 end;
        root ← fromstring data; resolve root,
        reqs ++ [lookup_url base card]))
  /\ (forall u base resp,
        URL u = Ok base ->
        urlopen (url_str (set_query base "get" "competition")) = Ok resp ->
        verify (Some u) reqs =
          (match
             data ← decode (body resp)
                      match content_charset resp with
                      | Some enc => enc
                      | None => "utf-8"
                      end;
             fromstring data
           with
           | Raise e => {| message := exc_str e; status := false |}
           | Ok root =>
               {| message :=
                    "URL is valid. Found competition " +:+ dquote
                      +:+ format_opt (competition_name root) +:+ dquote +:+ ".";
                  status := true |}
           end,
           reqs ++ [url_str (set_query base "get" "competition")])).
Proof.
  split.
  - intros self u base card resp Hu Hbase Hresp.
    unfold get_event_race_pre_warning_data, fetch_root. rewrite Hu.
    unfold mbind, Py_bind, result_bind, lift, urlopen_py. rewrite Hbase.
    fold (lookup_url base card). rewrite Hresp.
    unfold DEFAULT_RESPONSE_ENCODING.
    destruct (content_charset resp) as [enc|];
      (destruct (decode _ _) as [data|e]; [|reflexivity]);
      by destruct (fromstring data).
  - intros u base resp Hbase Hresp.
    unfold _verify_info_service_url, verify_try.
    unfold mbind, mret, Py_bind, Py_ret, result_bind, lift, urlopen_py.
    rewrite Hbase, Hresp. unfold DEFAULT_RESPONSE_ENCODING.
    destruct (content_charset resp) as [enc|];
      (destruct (decode _ _) as [data|e]; [|reflexivity]);
      (destruct (fromstring data) as [root|e]; [|reflexivity]);
      unfold _get_data; rewrite find_competition; unfold competition_name;
      by destruct (child root "competition").
Qed.

(** C9. For a fixed endpoint, lookups of two distinct card numbers request
    distinct URLs. *)
Theorem lookup_urls_distinct self u base c1 c2 reqs :
  meos_url self = Some u -> URL u = Ok base ->
  c1 <> c2 ->
  lookup_url base c1 <> lookup_url base c2
  /\ (lookup self c1 reqs).2 = reqs ++ [lookup_url base c1]
  /\ (lookup self c2 reqs).2 = reqs ++ [lookup_url base c2].
Proof.
  intros Hu Hbase Hne. split; [|split; by eapply lookup_requests].
  intros Heq. apply Hne. rewrite !lookup_url_eq in Heq.
  repeat apply (inj (String.append _)) in Heq.
  by apply quote_inj.
Qed.

(** C10. A competitor without [Status] child does not count as having no
    result yet, so the scan over several competitors never selects it. *)
Theorem statusless_never_selected r :
  child r "Status" = None ->
  _has_no_result r = Ok false
  /\ (forall runners, 1 < length runners -> select_runner runners <> Ok (Some r)).
Proof.
  intros Hnone.
  assert (Hfalse : _has_no_result r = Ok false).
  { apply has_no_result_false. by left. }
  split; [done|].
  intros runners Hlen Hsel. rewrite select_runner_many in Hsel by done.
  apply next_filter_Some in Hsel as [_ Htrue]. congruence.
Qed.

(** ** The endpoint verification *)




End ClientProperties.

(** ** The properties on the sample documents *)

Import Samples.

(** C1. Two competitors carry the card and neither has status code "0": the
    lookup raises the [AttributeError] of calling [find] on [None]; it signals
    no outcome of its own for the unresolved ambiguity. *)
Theorem lookup_both_finished_raises :
  Samples.lookup Samples.both_finished "123" =
    (Raise (PyExc AttributeError "'NoneType' object has no attribute 'find'"),
     ["http://localhost:2009/meos?lookup=competitor&card=123"]).
Proof. reflexivity. Qed.

(** Two finished runners are all passed over: the general form of the
    failure above. *)
Lemma both_finished_passed_over :
  resolve both_finished =
    Raise (PyExc AttributeError "'NoneType' object has no attribute 'find'").
Proof.
  apply resolve_all_passed_over; [vm_compute; lia|].
  change (competitors both_finished) with [finished_leg1; finished_leg2].
  apply Forall_cons_2; [|apply Forall_cons_2; [|apply Forall_nil_2]].
  - right. exists "1". split; [reflexivity | discriminate].
  - right. exists "2". split; [reflexivity | discriminate].
Qed.



Lemma no_runner_absent :
  lookup no_runner "123" =
    (Ok None, ["http://localhost:2009/meos?lookup=competitor&card=123"]).
Proof.
  apply (lookup_no_competitor URL urlopen decode (fromstring no_runner)
           service "123" [] _ no_runner); reflexivity.
Defined.

Lemma one_runner_used :
  lookup one_runner "123" =
    (Ok (Some {| bibNumber := "42"; relayLeg := Some "2" |}),
     ["http://localhost:2009/meos?lookup=competitor&card=123"]).
Proof.
  exact (proj2 (proj2 (proj2 (lookup_single_competitor URL urlopen decode
           (fromstring one_runner) service "123" []
           ["http://localhost:2009/meos?lookup=competitor&card=123"]
           one_runner bib42_leg2 eq_refl eq_refl)))
           (team_elem "42") (leg_elem "2") eq_refl eq_refl eq_refl eq_refl).
Defined.

Lemma teamless_runner_absent :
  lookup running_without_team "123" =
    (Ok None, ["http://localhost:2009/meos?lookup=competitor&card=123"]).
Proof.
  apply (lookup_selected_without_team URL urlopen decode
           (fromstring running_without_team) service "123" [] _
           running_without_team running_teamless); reflexivity.
Defined.

Lemma unconfigured_lookup_raises :
  get_event_race_pre_warning_data URL urlopen decode (fromstring one_runner)
    unconfigured "123" [] =
    (Raise (PyExc ValueError "MeOS Info server URL must be configured."), []).
Proof.
  apply (lookup_unconfigured_raises URL urlopen decode (fromstring one_runner)
           unconfigured "123" []). reflexivity.
Defined.

Lemma latin1_body_decoded_as_latin1 :
  get_event_race_pre_warning_data URL urlopen_latin1 decode (fromstring one_runner)
    service "123" [] =
    (data ← decode [] "iso-8859-1"; root ← fromstring one_runner data; resolve root,
     ["http://localhost:2009/meos?lookup=competitor&card=123"])
  /\ _verify_info_service_url URL urlopen_latin1 decode (fromstring no_runner)
       (Some "http://localhost:2009/meos") [] =
     (match data ← decode [] "iso-8859-1"; fromstring no_runner data with
      | Raise e => {| message := exc_str e; status := false |}
      | Ok root =>
          {| message :=
               "URL is valid. Found competition " +:+ dquote
                 +:+ format_opt (competition_name root) +:+ dquote +:+ ".";
             status := true |}
      end,
      ["http://localhost:2009/meos?get=competition"]).
Proof.
  split.
  - exact (proj1 (body_decoded_with_advertised_charset URL urlopen_latin1 decode
             (fromstring one_runner) [])
             service "http://localhost:2009/meos"
             {| endpoint := "http://localhost:2009/meos"; query := [] |} "123"
             {| content_charset := Some "iso-8859-1"; body := [] |}
             eq_refl eq_refl eq_refl).
  - exact (proj2 (body_decoded_with_advertised_charset URL urlopen_latin1 decode
             (fromstring no_runner) [])
             "http://localhost:2009/meos"
             {| endpoint := "http://localhost:2009/meos"; query := [] |}
             {| content_charset := Some "iso-8859-1"; body := [] |}
             eq_refl eq_refl).
Defined.

Lemma cards_123_124_distinct :
  lookup_url {| endpoint := "http://localhost:2009/meos"; query := [] |} "123"
  <> lookup_url {| endpoint := "http://localhost:2009/meos"; query := [] |} "124".
Proof.
  apply (lookup_urls_distinct URL urlopen decode (fromstring one_runner)
           service "http://localhost:2009/meos"
           {| endpoint := "http://localhost:2009/meos"; query := [] |}
           "123" "124" []).
  - reflexivity.
  - reflexivity.
  - discriminate.
Defined.

Lemma statusless_not_running :
  _has_no_result statusless = Ok false.
Proof.
  apply (statusless_never_selected statusless). reflexivity.
Defined.



(** * Further properties of the client *)

(** ** Searching the children of an element *)

Lemma has_tag_false t e : has_tag t e = false <-> tag e <> t.
Proof. unfold has_tag. apply String.eqb_neq. Qed.

Lemma has_tag_true t e : has_tag t e = true <-> tag e = t.
Proof. unfold has_tag. apply String.eqb_eq. Qed.

Lemma find_first_match {A} (P : A -> bool) pre c post :
  Forall (fun x => P x = false) pre -> P c = true ->
  List.find P (pre ++ c :: post) = Some c.
Proof.
  intros Hpre Hc. induction Hpre as [|x pre Hx _ IH]; cbn.
  - by rewrite Hc.
  - by rewrite Hx.
Qed.

Lemma find_no_match {A} (P : A -> bool) l :
  Forall (fun x => P x = false) l -> List.find P l = None.
Proof.
  intros H. induction H as [|x l Hx _ IH]; cbn; [done | by rewrite Hx].
Qed.

Lemma filter_no_match {A} (P : A -> bool) l :
  Forall (fun x => P x = false) l -> List.filter P l = [].
Proof.
  intros H. induction H as [|x l Hx _ IH]; cbn; [done | by rewrite Hx].
Qed.

Lemma find_ns e local : find e ("ns:" +:+ local) NS = Ok (child e local).
Proof. reflexivity. Qed.

(** X1. For the two selectors the program passes to it, [ns:Leg] and
    [ns:competition], [_get_data] gives the text of the first child of that
    name in document order, later children of the same name are not looked
    at; it gives [None], and raises nothing, when there is no such child. *)
Theorem get_data_first_child element local :
  local = "Leg" \/ local = "competition" ->
  (forall pre c post,
     children element = pre ++ c :: post ->
     Forall (fun x => tag x <> "{http://www.melin.nu/mop}" +:+ local) pre ->
     tag c = "{http://www.melin.nu/mop}" +:+ local ->
     _get_data element ("ns:" +:+ local) NS = Ok (text c))
  /\ (Forall (fun x => tag x <> "{http://www.melin.nu/mop}" +:+ local)
        (children element) ->
      _get_data element ("ns:" +:+ local) NS = Ok None).
Proof.
  intros _. unfold _get_data. rewrite find_ns. unfold child. split.
  - intros pre c post -> Hpre Hc.
    rewrite find_first_match; [reflexivity | | by apply has_tag_true].
    eapply Forall_impl; [exact Hpre|]. intros x. apply has_tag_false.
  - intros Hall. rewrite find_no_match; [reflexivity|].
    eapply Forall_impl; [exact Hall|]. intros x. apply has_tag_false.
Qed.

(** ** The three outcomes of [_has_no_result] *)

(** X2. [_has_no_result] raises exactly when the first [Status] child of the
    runner has no [code] attribute, and what it raises is the [KeyError] of
    that attribute. *)
Theorem has_no_result_raises_iff runner e :
  _has_no_result runner = Raise e
  <-> e = PyExc KeyError "'code'"
      /\ exists s, child runner "Status" = Some s /\ attrib s !! "code" = None.
Proof.
  rewrite has_no_result_cases.
  destruct (child runner "Status") as [s|].
  - destruct (attrib s !! "code") as [code|] eqn:Hcode.
    + split; [discriminate|]. intros (_ & s' & [= <-] & H). congruence.
    + split.
      * intros [= <-]. split; [reflexivity|]. by exists s.
      * by intros [-> _].
  - split; [discriminate|]. by intros (_ & s & [=] & _).
Qed.

(** ** The scan, read backwards *)

Lemma next_filter_Some_split {A} (f : A -> result bool) l x :
  next_filter f l = Ok (Some x) ->
  exists pre post,
    l = pre ++ x :: post /\ Forall (fun y => f y = Ok false) pre /\ f x = Ok true.
Proof.
  induction l as [|y l IH]; cbn; [discriminate|].
  destruct (f y) as [[]|e] eqn:Hy; cbn.
  - intros [= <-]. by exists [], l.
  - intros H. destruct (IH H) as (pre & post & -> & Hpre & Hx).
    exists (y :: pre), post. repeat split; [|done]. by constructor.
  - discriminate.
Qed.

Lemma next_filter_None_all {A} (f : A -> result bool) l :
  next_filter f l = Ok None -> Forall (fun y => f y = Ok false) l.
Proof.
  induction l as [|y l IH]; cbn; [constructor|].
  destruct (f y) as [[]|e] eqn:Hy; cbn; [discriminate| |discriminate].
  intros H. constructor; [done | by apply IH].
Qed.

Lemma next_filter_Raise_split {A} (f : A -> result bool) l e :
  next_filter f l = Raise e ->
  exists pre x post,
    l = pre ++ x :: post /\ Forall (fun y => f y = Ok false) pre /\ f x = Raise e.
Proof.
  induction l as [|y l IH]; cbn; [discriminate|].
  destruct (f y) as [[]|e'] eqn:Hy; cbn.
  - discriminate.
  - intros H. destruct (IH H) as (pre & x & post & -> & Hpre & Hx).
    exists (y :: pre), x, post. repeat split; [|done]. by constructor.
  - intros [= <-]. by exists [], y, l.
Qed.

(** ** Results and failures of the lookup *)

Lemma select_runner_nonempty_single runners :
  runners <> [] -> ~ 1 < length runners ->
  exists r, runners = [r] /\ select_runner runners = Ok (Some r).
Proof.
  intros Hne Hlen. destruct runners as [|r [|r' rest]]; [done| |cbn in Hlen; lia].
  by exists r.
Qed.

Section LookupOutcomes.

Variable URL : string -> result Url.
Variable urlopen : string -> result Response.
Variable decode : list Byte.byte -> string -> result string.
Variable fromstring : string -> result Element.

Local Abbreviation fetch := (fetch_root URL urlopen decode fromstring).
Local Abbreviation lookup := (get_event_race_pre_warning_data URL urlopen decode fromstring).
Local Abbreviation verify := (_verify_info_service_url URL urlopen decode fromstring).
Local Abbreviation adapter := (lookup_from_card_number URL urlopen decode fromstring).

Lemma lookup_resolve self card reqs reqs' root :
  fetch self card reqs = (Ok root, reqs') ->
  lookup self card reqs = (resolve root, reqs').
Proof.
  intros H. unfold get_event_race_pre_warning_data, mbind, Py_bind.
  by rewrite H.
Qed.

Lemma resolve_cases root :
  resolve root =
    if decide (length (competitors root) = 0) then Ok None
    else runner ← select_runner (competitors root); read_runner runner.
Proof. reflexivity. Qed.

Lemma parsed_lookup_failure_classes self card reqs reqs' root e :
  fetch self card reqs = (Ok root, reqs') ->
  lookup self card reqs = (Raise e, reqs') ->
  e = PyExc AttributeError "'NoneType' object has no attribute 'find'"
  \/ e = PyExc KeyError "'code'" \/ e = PyExc KeyError "'id'".
Proof.
  intros Hfetch. rewrite (lookup_resolve _ _ _ _ _ Hfetch), resolve_cases.
  intros [= H]. revert H.
  destruct (decide (length (competitors root) = 0)) as [|Hlen]; [discriminate|].
  destruct (select_runner (competitors root)) as [[r|]|e'] eqn:Hsel;
    cbn [mbind result_bind].
  - rewrite read_runner_cases.
    destruct (child r "Team") as [team|]; [|discriminate].
    destruct (attrib team !! "id"); [discriminate|].
    intros [= <-]. auto.
  - intros [= <-]. auto.
  - intros [= <-]. right; left.
    destruct (decide (1 < length (competitors root))) as [Hmany|Hfew].
    + rewrite select_runner_many in Hsel by done.
      apply next_filter_Raise_split in Hsel as (pre & r & post & _ & _ & Hr).
      by apply has_no_result_raises_cases in Hr as [-> _].
    + destruct (select_runner_nonempty_single (competitors root)) as (r & _ & Hr);
        [by destruct (competitors root) | done | congruence].
Qed.

(** X3. Once the response has parsed, the lookup can fail in three ways only:
    with the [AttributeError] of [None.find], when several competitors are all
    passed over; with [KeyError] for [code], when the scan over several
    competitors reaches a [Status] without that attribute; with [KeyError] for
    [id], when the selected competitor has a [Team] without that attribute.
    In particular [runners[0]] never raises. *)
Theorem lookup_failures_after_parsing self card reqs reqs' root e :
  fetch self card reqs = (Ok root, reqs') ->
  lookup self card reqs = (Raise e, reqs') ->
  (e = PyExc AttributeError "'NoneType' object has no attribute 'find'"
   /\ 1 < length (competitors root) /\ Forall passed_over (competitors root))
  \/ (e = PyExc KeyError "'code'"
      /\ 1 < length (competitors root)
      /\ exists pre r post s,
           competitors root = pre ++ r :: post /\ Forall passed_over pre
           /\ child r "Status" = Some s /\ attrib s !! "code" = None)
  \/ (e = PyExc KeyError "'id'"
      /\ exists r team,
           select_runner (competitors root) = Ok (Some r)
           /\ child r "Team" = Some team /\ attrib team !! "id" = None).
Proof.
  intros Hfetch. rewrite (lookup_resolve _ _ _ _ _ Hfetch), resolve_cases.
  intros [= H]. revert H.
  destruct (decide (length (competitors root) = 0)) as [|Hlen]; [discriminate|].
  destruct (select_runner (competitors root)) as [[r|]|e'] eqn:Hsel;
    cbn [mbind result_bind].
  - rewrite read_runner_cases.
    destruct (child r "Team") as [team|] eqn:Hteam; [|discriminate].
    destruct (attrib team !! "id") as [bib|] eqn:Hid; [discriminate|].
    intros [= <-]. right; right. split; [reflexivity|]. by exists r, team.
  - intros [= <-]. left. split; [reflexivity|].
    destruct (decide (1 < length (competitors root))) as [Hmany|Hfew].
    + split; [done|]. rewrite select_runner_many in Hsel by done.
      apply next_filter_None_all in Hsel.
      eapply Forall_impl; [exact Hsel|]. intros x. apply has_no_result_false.
    + destruct (select_runner_nonempty_single (competitors root)) as (r & _ & Hr);
        [by destruct (competitors root) | done | congruence].
  - intros [= <-]. right; left.
    destruct (decide (1 < length (competitors root))) as [Hmany|Hfew].
    + rewrite select_runner_many in Hsel by done.
      apply next_filter_Raise_split in Hsel
        as (pre & r & post & Hcs & Hpre & Hr).
      apply has_no_result_raises_cases in Hr as (-> & s & Hs & Hcode).
      split; [reflexivity|]. split; [done|].
      exists pre, r, post, s. repeat split; try done.
      eapply Forall_impl; [exact Hpre|]. intros x. apply has_no_result_false.
    + destruct (select_runner_nonempty_single (competitors root)) as (r & _ & Hr);
        [by destruct (competitors root) | done | congruence].
Qed.

(** X4. A [Team] element without [id] attribute on the selected competitor makes
    the lookup raise [KeyError]; it does not give the absent result. *)
Theorem lookup_team_without_id_raises self card reqs reqs' root r team :
  fetch self card reqs = (Ok root, reqs') ->
  select_runner (competitors root) = Ok (Some r) ->
  child r "Team" = Some team ->
  attrib team !! "id" = None ->
  lookup self card reqs = (Raise (PyExc KeyError "'id'"), reqs').
Proof.
  intros Hfetch Hsel Hteam Hid.
  rewrite (lookup_resolve _ _ _ _ _ Hfetch), resolve_cases.
  destruct (decide (length (competitors root) = 0)) as [Hzero|_].
  { destruct (competitors root); [discriminate Hsel | discriminate Hzero]. }
  rewrite Hsel. cbn [mbind result_bind].
  by rewrite read_runner_cases, Hteam, Hid.
Qed.

(** X5. With several competitors, a [Status] element without [code] attribute
    that the scan reaches, all competitors before it being passed over, makes
    the lookup raise [KeyError], whatever follows it. *)
Theorem lookup_status_without_code_raises self card reqs reqs' root pre r post s :
  fetch self card reqs = (Ok root, reqs') ->
  competitors root = pre ++ r :: post ->
  1 < length (competitors root) ->
  Forall passed_over pre ->
  child r "Status" = Some s ->
  attrib s !! "code" = None ->
  lookup self card reqs = (Raise (PyExc KeyError "'code'"), reqs').
Proof.
  intros Hfetch Hcs Hlen Hpre Hs Hcode.
  rewrite (lookup_resolve _ _ _ _ _ Hfetch), resolve_cases.
  rewrite decide_False by lia. rewrite select_runner_many by done.
  rewrite Hcs, (next_filter_raise _ pre r post (PyExc KeyError "'code'")).
  - reflexivity.
  - eapply Forall_impl; [exact Hpre|]. intros x. apply has_no_result_false.
  - by eapply has_no_result_raises_when.
Qed.

(** X6. Every result comes from a competitor of the response: its bib number is
    the [id] of that competitor's [Team] and its relay leg the text of its
    [Leg], absent when there is no [Leg] or it has no text.  With several
    competitors it is the first with status code "0", all before it being
    passed over; otherwise it is the only one. *)
Theorem lookup_result_origin self card reqs reqs' root d :
  fetch self card reqs = (Ok root, reqs') ->
  lookup self card reqs = (Ok (Some d), reqs') ->
  exists pre r post team,
    competitors root = pre ++ r :: post
    /\ child r "Team" = Some team
    /\ attrib team !! "id" = Some (bibNumber d)
    /\ relayLeg d = child r "Leg" ≫= text
    /\ (1 < length (competitors root) ->
        Forall passed_over pre /\ status_code r = Some "0")
    /\ (~ 1 < length (competitors root) -> pre = [] /\ post = []).
Proof.
  intros Hfetch. rewrite (lookup_resolve _ _ _ _ _ Hfetch), resolve_cases.
  intros [= H]. revert H.
  destruct (decide (length (competitors root) = 0)) as [|Hlen]; [discriminate|].
  destruct (select_runner (competitors root)) as [[r|]|e'] eqn:Hsel;
    cbn [mbind result_bind]; [|discriminate..].
  rewrite read_runner_cases.
  destruct (child r "Team") as [team|] eqn:Hteam; [|discriminate].
  destruct (attrib team !! "id") as [bib|] eqn:Hid; [|discriminate].
  intros [= <-]. cbn [bibNumber relayLeg].
  destruct (decide (1 < length (competitors root))) as [Hmany|Hfew].
  - rewrite select_runner_many in Hsel by done.
    apply next_filter_Some_split in Hsel as (pre & post & Hcs & Hpre & Hr).
    exists pre, r, post, team. repeat split; try done.
    + eapply Forall_impl; [exact Hpre|]. intros x. apply has_no_result_false.
    + by apply has_no_result_true.
  - destruct (select_runner_nonempty_single (competitors root)) as (r' & Hcs & Hr);
      [by destruct (competitors root) | done |].
    assert (r' = r) as -> by congruence.
    exists [], r, [], team. repeat split; done.
Qed.

(** X7. The absent result has two causes and no other: the response has no
    competitor, or the selected competitor has no [Team] child. *)
Theorem lookup_absent_iff self card reqs reqs' root :
  fetch self card reqs = (Ok root, reqs') ->
  lookup self card reqs = (Ok None, reqs')
  <-> competitors root = []
      \/ exists r, select_runner (competitors root) = Ok (Some r)
                   /\ child r "Team" = None.
Proof.
  intros Hfetch. rewrite (lookup_resolve _ _ _ _ _ Hfetch), resolve_cases.
  split.
  - intros [= H]. revert H.
    destruct (decide (length (competitors root) = 0)) as [Hzero|Hlen].
    { intros _. left. by destruct (competitors root). }
    destruct (select_runner (competitors root)) as [[r|]|e'] eqn:Hsel;
      cbn [mbind result_bind]; [|discriminate..].
    rewrite read_runner_cases.
    destruct (child r "Team") as [team|] eqn:Hteam.
    + by destruct (attrib team !! "id").
    + intros _. right. by exists r.
  - intros [Hnone | (r & Hsel & Hteam)].
    + by rewrite Hnone.
    + destruct (decide (length (competitors root) = 0)); [done|].
      rewrite Hsel. cbn [mbind result_bind].
      by rewrite read_runner_cases, Hteam.
Qed.

(** X8. When the selected competitor has a [Team] with an [id], the lookup
    succeeds with that id as bib number, also when the competitor has no
    [Leg]: the relay leg is then absent. *)
Theorem lookup_reads_team_and_leg self card reqs reqs' root r team bib :
  fetch self card reqs = (Ok root, reqs') ->
  select_runner (competitors root) = Ok (Some r) ->
  child r "Team" = Some team ->
  attrib team !! "id" = Some bib ->
  lookup self card reqs =
    (Ok (Some {| bibNumber := bib; relayLeg := child r "Leg" ≫= text |}), reqs')
  /\ (child r "Leg" = None ->
      lookup self card reqs =
        (Ok (Some {| bibNumber := bib; relayLeg := None |}), reqs')).
Proof.
  intros Hfetch Hsel Hteam Hid.
  assert (H : lookup self card reqs =
    (Ok (Some {| bibNumber := bib; relayLeg := child r "Leg" ≫= text |}), reqs')).
  { rewrite (lookup_resolve _ _ _ _ _ Hfetch), resolve_cases.
    destruct (decide (length (competitors root) = 0)) as [Hzero|_].
    { destruct (competitors root); [discriminate Hsel | discriminate Hzero]. }
    rewrite Hsel. cbn [mbind result_bind].
    by rewrite read_runner_cases, Hteam, Hid. }
  split; [done|]. intros Hleg. by rewrite H, Hleg.
Qed.

(** X9. Only children of the root whose tag is [Competitor] in the MOP namespace
    count: a response without such a child, whatever else it holds, gives the
    absent result. *)
Theorem lookup_ignores_other_elements self card reqs reqs' root :
  fetch self card reqs = (Ok root, reqs') ->
  Forall (fun c => tag c <> "{http://www.melin.nu/mop}Competitor") (children root) ->
  lookup self card reqs = (Ok None, reqs').
Proof.
  intros Hfetch Hall.
  rewrite (lookup_resolve _ _ _ _ _ Hfetch), resolve_cases.
  unfold competitors. rewrite filter_no_match; [reflexivity|].
  eapply Forall_impl; [exact Hall|]. intros x. apply has_tag_false.
Qed.

(** ** Failing stages and issued requests *)

(** X10. Whatever stage of a lookup fails, its exception reaches the caller as it
    is: a base URL that does not parse (no request is issued then), a failed
    request, a body that does not decode, a text that does not parse.  A
    failed request is not repeated. *)
Theorem lookup_stage_failure_propagates self u card reqs e :
  meos_url self = Some u ->
  (URL u = Raise e -> lookup self card reqs = (Raise e, reqs))
  /\ (forall base,
        URL u = Ok base -> urlopen (lookup_url base card) = Raise e ->
        lookup self card reqs = (Raise e, reqs ++ [lookup_url base card]))
  /\ (forall base resp,
        URL u = Ok base -> urlopen (lookup_url base card) = Ok resp ->
        decode (body resp)
          match content_charset resp with
          | Some enc => enc
          | None => "utf-8"
          end = Raise e ->
        lookup self card reqs = (Raise e, reqs ++ [lookup_url base card]))
  /\ (forall base resp data,
        URL u = Ok base -> urlopen (lookup_url base card) = Ok resp ->
        decode (body resp)
          match content_charset resp with
          | Some enc => enc
          | None => "utf-8"
          end = Ok data ->
        fromstring data = Raise e ->
        lookup self card reqs = (Raise e, reqs ++ [lookup_url base card])).
Proof.
  intros Hu.
  unfold get_event_race_pre_warning_data, fetch_root, lookup_url.
  rewrite Hu. unfold mbind, Py_bind, lift, urlopen_py, DEFAULT_RESPONSE_ENCODING.
  repeat split.
  - intros HURL. by rewrite HURL.
  - intros base HURL Hopen. by rewrite HURL, Hopen.
  - intros base resp HURL Hopen Hdec. by rewrite HURL, Hopen, Hdec.
  - intros base resp data HURL Hopen Hdec Hxml.
    by rewrite HURL, Hopen, Hdec, Hxml.
Qed.

(** X11. A lookup sets out to request at most one URL and leaves the earlier
    entries of the request log as they are, whether it succeeds or fails: a
    failed request is not tried again.  It sets out to request none when no
    base URL is configured or the base URL does not parse. *)
Theorem lookup_issues_at_most_one_request self card reqs :
  (exists extra,
     (lookup self card reqs).2 = reqs ++ extra /\ length extra <= 1)
  /\ (meos_url self = None -> (lookup self card reqs).2 = reqs)
  /\ (forall u e, meos_url self = Some u -> URL u = Raise e ->
      (lookup self card reqs).2 = reqs).
Proof.
  unfold get_event_race_pre_warning_data, fetch_root.
  destruct (meos_url self) as [u|]; cycle 1.
  { split; [|split; [done | intros u e [=]]].
    exists []. split; [by rewrite app_nil_r | cbn; lia]. }
  unfold mbind, Py_bind, lift, urlopen_py.
  destruct (URL u) as [base|e] eqn:HURL; cycle 1.
  { split; [|split; [done | done]].
    exists []. split; [by rewrite app_nil_r | cbn; lia]. }
  split; [|split; [done | intros u' e [= <-]; congruence]].
  eexists [_]. split; [|cbn; lia].
  destruct (urlopen _) as [resp|e]; [|reflexivity].
  destruct (decode _ _) as [data|e]; [|reflexivity].
  by destruct (fromstring data).
Qed.

(** X12. The verification sets out to request at most one URL, whatever its
    outcome, and none for [None] or for a URL that does not parse; it leaves
    the earlier entries of the request log as they are. *)
Theorem verify_issues_at_most_one_request url reqs :
  (exists extra,
     (verify url reqs).2 = reqs ++ extra /\ length extra <= 1)
  /\ (url = None -> (verify url reqs).2 = reqs)
  /\ (forall u e, url = Some u -> URL u = Raise e -> (verify url reqs).2 = reqs).
Proof.
  unfold _verify_info_service_url, verify_try.
  destruct url as [u|]; cycle 1.
  { split; [|split; [done | intros u e [=]]].
    exists []. split; [by rewrite app_nil_r | cbn; lia]. }
  unfold mbind, mret, Py_bind, Py_ret, lift, urlopen_py.
  destruct (URL u) as [base|e] eqn:HURL; cycle 1.
  { split; [|split; [done | done]].
    exists []. split; [by rewrite app_nil_r | cbn; lia]. }
  split; [|split; [done | intros u' e [= <-]; congruence]].
  eexists [_]. split; [|cbn; lia].
  destruct (urlopen _) as [resp|e]; [|reflexivity].
  destruct (decode _ _) as [data|e]; [|reflexivity].
  destruct (fromstring data) as [root|e]; [|reflexivity].
  by destruct (_get_data root "ns:competition" NS).
Qed.

(** ** The start list source *)

Lemma lookup_raises_cases self card reqs reqs' e :
  lookup self card reqs = (Raise e, reqs') ->
  exc_type e = ValueError \/ exc_type e = AttributeError \/ exc_type e = KeyError
  \/ (exists u, URL u = Raise e) \/ (exists u, urlopen u = Raise e)
  \/ (exists b enc, decode b enc = Raise e) \/ (exists s, fromstring s = Raise e).
Proof.
  destruct (fetch self card reqs) as [[root|e'] reqs1] eqn:Hfetch.
  - rewrite (lookup_resolve _ _ _ _ _ Hfetch). intros [= H <-].
    assert (Hl : lookup self card reqs = (Raise e, reqs1))
      by (by rewrite (lookup_resolve _ _ _ _ _ Hfetch), H).
    destruct (parsed_lookup_failure_classes _ _ _ _ _ _ Hfetch Hl)
      as [-> | [-> | ->]]; auto.
  - unfold get_event_race_pre_warning_data, mbind, Py_bind. rewrite Hfetch.
    intros [= <- <-]. revert Hfetch. unfold fetch_root.
    destruct (meos_url self) as [u|]; [|intros [= <- _]; auto].
    unfold mbind, Py_bind, lift, urlopen_py.
    destruct (URL u) as [base|e1] eqn:HURL;
      [|intros [= <- _]; right; right; right; left; eauto].
    destruct (urlopen _) as [resp|e1] eqn:Hopen;
      [|intros [= <- _]; do 4 right; left; eauto].
    destruct (decode _ _) as [data|e1] eqn:Hdec;
      [|intros [= <- _]; do 5 right; left; eauto].
    intros [= Hxml _]. do 6 right. eauto.
Qed.

(** X13. The handler for [OperationalError] in [lookup_from_card_number] never
    fires unless one of the libraries raises that error: in a world where they
    do not, a running source returns or raises exactly what the service
    does. *)
Theorem running_source_hands_on source card reqs :
  (forall u e, URL u = Raise e -> exc_type e <> OperationalError) ->
  (forall u e, urlopen u = Raise e -> exc_type e <> OperationalError) ->
  (forall b enc e, decode b enc = Raise e -> exc_type e <> OperationalError) ->
  (forall s e, fromstring s = Raise e -> exc_type e <> OperationalError) ->
  _running source = true ->
  adapter source card reqs = lookup (meos_info_service source) card reqs.
Proof.
  intros HURL Hopen Hdec Hxml Hrun. unfold lookup_from_card_number.
  rewrite Hrun. cbn [negb].
  destruct (lookup (meos_info_service source) card reqs) as [[d|e] reqs'] eqn:Hl;
    [reflexivity|].
  rewrite decide_False; [reflexivity|].
  intros Hop.
  destruct (lookup_raises_cases _ _ _ _ _ Hl)
    as [H | [H | [H | [[u H] | [[u H] | [(b & enc & H) | [s H]]]]]]];
    try congruence.
  - by apply (HURL u e).
  - by apply (Hopen u e).
  - by apply (Hdec b enc e).
  - by apply (Hxml s e).
Qed.

End LookupOutcomes.

(** ** Life cycle of the start list source *)

Lemma perform_all_snoc calls c self :
  Source.perform_all (calls ++ [c]) self =
    Source.perform (Source.perform_all calls self) c.
Proof. unfold Source.perform_all. by rewrite fold_left_app. Qed.

Lemma perform_all_service calls self :
  meos_info_service (Source.perform_all calls self) = meos_info_service self.
Proof.
  revert self. induction calls as [|c calls IH]; intros self; [reflexivity|].
  cbn. rewrite IH. by destruct c.
Qed.

Lemma perform_all_stays_stopped calls self :
  Source.Start ∉ calls -> _running self = false ->
  _running (Source.perform_all calls self) = false.
Proof.
  revert self. induction calls as [|c calls IH]; intros self Hno Hoff; [done|].
  cbn. apply IH.
  - intros H. apply Hno. by right.
  - destruct c; try done. exfalso. apply Hno. by left.
Qed.

(** X14. After any sequence of calls on a new source, the source is running
    exactly when [start] has been called and [stop] has not been called since;
    [update], [config_updated] and [on_modified] change nothing of it, and
    the service it holds stays the same. *)
Theorem running_iff_started_not_stopped service calls :
  (Source.is_running (Source.perform_all calls (Source.__init__ service)) = true
   <-> exists pre post, calls = pre ++ Source.Start :: post /\ Source.Stop ∉ post)
  /\ meos_info_service (Source.perform_all calls (Source.__init__ service)) = service.
Proof.
  split; [|by rewrite perform_all_service].
  induction calls as [|c calls IH] using rev_ind.
  - cbn. split; [discriminate|]. intros (pre & post & H & _). by destruct pre.
  - rewrite perform_all_snoc.
    assert (Hlast : forall pre post,
      calls ++ [c] = pre ++ Source.Start :: post ->
      (post = [] /\ c = Source.Start /\ calls = pre)
      \/ exists post', post = post' ++ [c] /\ calls = pre ++ Source.Start :: post').
    { intros pre post H. destruct post as [|x post _] using rev_ind.
      - left. apply app_inj_tail in H as [-> ->]. done.
      - right. exists post.
        change (pre ++ Source.Start :: post ++ [x])
          with (pre ++ (Source.Start :: post) ++ [x]) in H.
        rewrite app_assoc in H. apply app_inj_tail in H as [-> ->]. done. }
    assert (Hkeep : forall c', c = c' -> c' <> Source.Start -> c' <> Source.Stop ->
      Source.is_running (Source.perform (Source.perform_all calls (Source.__init__ service)) c)
        = Source.is_running (Source.perform_all calls (Source.__init__ service)) ->
      Source.is_running (Source.perform (Source.perform_all calls (Source.__init__ service)) c)
        = true
      <-> exists pre post, calls ++ [c] = pre ++ Source.Start :: post /\ Source.Stop ∉ post).
    { intros c' -> Hns Hnt ->. rewrite IH. split.
      - intros (pre & post & -> & Hpost). exists pre, (post ++ [c']).
        split; [by rewrite <- app_assoc|].
        rewrite elem_of_app, list_elem_of_singleton. intros [?|?]; [done | congruence].
      - intros (pre & post & H & Hpost).
        destruct (Hlast _ _ H) as [(_ & Hc & _) | (post' & -> & ->)]; [congruence|].
        exists pre, post'. split; [done|].
        intros Hin. apply Hpost. rewrite elem_of_app. by left. }
    destruct c as [| | |names|].
    + cbn. split; [|done]. intros _. exists calls, []. split; [done|].
      apply not_elem_of_nil.
    + cbn. split; [discriminate|]. intros (pre & post & H & Hpost).
      destruct (Hlast _ _ H) as [(_ & Hc & _) | (post' & -> & _)]; [discriminate|].
      exfalso. apply Hpost. rewrite elem_of_app, list_elem_of_singleton. by right.
    + by apply (Hkeep Source.OnModified).
    + by apply (Hkeep (Source.ConfigUpdated names)).
    + by apply (Hkeep Source.Update).
Qed.

Section StoppedSource.

Variable URL : string -> result Url.
Variable urlopen : string -> result Response.
Variable decode : list Byte.byte -> string -> result string.
Variable fromstring : string -> result Element.

Local Abbreviation adapter := (lookup_from_card_number URL urlopen decode fromstring).

(** X15. A source that is new or has been stopped answers every lookup with the
    absent result until [start] is called: it issues no request and does not
    ask the service, so not even a missing base URL is reported. *)
Theorem stopped_source_answers_none self service calls card reqs :
  Source.Start ∉ calls ->
  adapter (Source.perform_all calls (Source.stop self)) card reqs = (Ok None, reqs)
  /\ adapter (Source.perform_all calls (Source.__init__ service)) card reqs
     = (Ok None, reqs).
Proof.
  intros Hno. unfold lookup_from_card_number.
  rewrite !perform_all_stays_stopped by done. done.
Qed.

End StoppedSource.

(** ** The further properties on the sample documents *)

Lemma leg_text_of_first_leg :
  _get_data bib42_leg2 "ns:Leg" NS = Ok (Some "2").
Proof.
  apply (proj1 (get_data_first_child bib42_leg2 "Leg" (or_introl eq_refl))
           [status_elem "1"; team_elem "42"] (leg_elem "2") []).
  - reflexivity.
  - apply Forall_cons_2; [discriminate|].
    apply Forall_cons_2; [discriminate | apply Forall_nil_2].
  - reflexivity.
Defined.

Lemma codeless_status_raises_key_error :
  _has_no_result codeless_leg1 = Raise (PyExc KeyError "'code'").
Proof.
  apply (proj2 (has_no_result_raises_iff codeless_leg1 (PyExc KeyError "'code'"))).
  split; [reflexivity|]. exists status_without_code. split; reflexivity.
Defined.

Lemma both_finished_failure_cause :
  (PyExc AttributeError "'NoneType' object has no attribute 'find'"
     = PyExc AttributeError "'NoneType' object has no attribute 'find'"
   /\ 1 < length (competitors both_finished)
   /\ Forall passed_over (competitors both_finished))
  \/ (PyExc AttributeError "'NoneType' object has no attribute 'find'"
        = PyExc KeyError "'code'"
      /\ 1 < length (competitors both_finished)
      /\ exists pre r post s,
           competitors both_finished = pre ++ r :: post /\ Forall passed_over pre
           /\ child r "Status" = Some s /\ attrib s !! "code" = None)
  \/ (PyExc AttributeError "'NoneType' object has no attribute 'find'"
        = PyExc KeyError "'id'"
      /\ exists r team,
           select_runner (competitors both_finished) = Ok (Some r)
           /\ child r "Team" = Some team /\ attrib team !! "id" = None).
Proof.
  apply (lookup_failures_after_parsing URL urlopen decode (fromstring both_finished)
           service "123" []
           ["http://localhost:2009/meos?lookup=competitor&card=123"]
           both_finished); reflexivity.
Defined.

Lemma idless_team_raises :
  lookup idless_team_document "123" =
    (Raise (PyExc KeyError "'id'"),
     ["http://localhost:2009/meos?lookup=competitor&card=123"]).
Proof.
  apply (lookup_team_without_id_raises URL urlopen decode
           (fromstring idless_team_document) service "123" [] _
           idless_team_document runner_with_idless_team team_without_id);
    reflexivity.
Defined.

Lemma codeless_then_running_raises :
  lookup codeless_then_running "123" =
    (Raise (PyExc KeyError "'code'"),
     ["http://localhost:2009/meos?lookup=competitor&card=123"]).
Proof.
  apply (lookup_status_without_code_raises URL urlopen decode
           (fromstring codeless_then_running) service "123" [] _
           codeless_then_running [] codeless_leg1 [running_leg2]
           status_without_code).
  - reflexivity.
  - reflexivity.
  - vm_compute. lia.
  - apply Forall_nil_2.
  - reflexivity.
  - reflexivity.
Defined.

Lemma running_result_origin :
  exists pre r post team,
    competitors finished_then_running = pre ++ r :: post
    /\ child r "Team" = Some team
    /\ attrib team !! "id" = Some "7"
    /\ Some "2" = child r "Leg" ≫= text
    /\ (1 < length (competitors finished_then_running) ->
        Forall passed_over pre /\ status_code r = Some "0")
    /\ (~ 1 < length (competitors finished_then_running) -> pre = [] /\ post = []).
Proof.
  apply (lookup_result_origin URL urlopen decode (fromstring finished_then_running)
           service "123" []
           ["http://localhost:2009/meos?lookup=competitor&card=123"]
           finished_then_running {| bibNumber := "7"; relayLeg := Some "2" |});
    reflexivity.
Defined.

Lemma teamless_absent_cause :
  lookup running_without_team "123" =
    (Ok None, ["http://localhost:2009/meos?lookup=competitor&card=123"])
  <-> competitors running_without_team = []
      \/ exists r, select_runner (competitors running_without_team) = Ok (Some r)
                   /\ child r "Team" = None.
Proof.
  apply (lookup_absent_iff URL urlopen decode (fromstring running_without_team)
           service "123" [] _ running_without_team).
  reflexivity.
Defined.

Lemma runner_without_leg_served :
  lookup no_leg_document "123" =
    (Ok (Some {| bibNumber := "15"; relayLeg := None |}),
     ["http://localhost:2009/meos?lookup=competitor&card=123"]).
Proof.
  apply (lookup_reads_team_and_leg URL urlopen decode (fromstring no_leg_document)
           service "123" [] _ no_leg_document runner_without_leg (team_elem "15"));
    reflexivity.
Defined.

Lemma foreign_document_absent :
  lookup foreign_document "123" =
    (Ok None, ["http://localhost:2009/meos?lookup=competitor&card=123"]).
Proof.
  apply (lookup_ignores_other_elements URL urlopen decode
           (fromstring foreign_document) service "123" [] _ foreign_document).
  - reflexivity.
  - apply Forall_cons_2; [discriminate|].
    apply Forall_cons_2; [discriminate | apply Forall_nil_2].
Defined.

Lemma refused_request_propagates :
  get_event_race_pre_warning_data URL Failing.urlopen decode (fromstring one_runner)
    service "123" [] =
    (Raise Failing.refused,
     ["http://localhost:2009/meos?lookup=competitor&card=123"]).
Proof.
  apply (proj1 (proj2 (lookup_stage_failure_propagates URL Failing.urlopen decode
           (fromstring one_runner) service "http://localhost:2009/meos" "123" []
           Failing.refused eq_refl))
           {| endpoint := "http://localhost:2009/meos"; query := [] |});
    reflexivity.
Defined.

Lemma running_source_refused :
  lookup_from_card_number URL Failing.urlopen decode (fromstring one_runner)
    running_source "123" [] =
  get_event_race_pre_warning_data URL Failing.urlopen decode (fromstring one_runner)
    service "123" [].
Proof.
  apply (running_source_hands_on URL Failing.urlopen decode (fromstring one_runner)
           running_source "123" []).
  - intros u e H. discriminate H.
  - intros u e [= <-]. discriminate.
  - intros b enc e H. discriminate H.
  - intros s e H. discriminate H.
  - reflexivity.
Defined.

Lemma started_source_is_running :
  Source.is_running
    (Source.perform_all
       [Source.Stop; Source.Start; Source.ConfigUpdated ["MeosInfoService"];
        Source.OnModified]
       (Source.__init__ service)) = true.
Proof.
  apply (proj1 (running_iff_started_not_stopped service
           [Source.Stop; Source.Start; Source.ConfigUpdated ["MeosInfoService"];
            Source.OnModified])).
  exists [Source.Stop], [Source.ConfigUpdated ["MeosInfoService"]; Source.OnModified].
  split; [reflexivity|].
  rewrite !not_elem_of_cons. repeat split; try discriminate. apply not_elem_of_nil.
Defined.

Lemma stopped_source_silent :
  lookup_from_card_number URL urlopen decode (fromstring one_runner)
    (Source.perform_all
       [Source.ConfigUpdated ["MeosInfoService"]; Source.OnModified; Source.Update]
       (Source.__init__ unconfigured)) "123" [] = (Ok None, []).
Proof.
  apply (stopped_source_answers_none URL urlopen decode (fromstring one_runner)
           running_source unconfigured
           [Source.ConfigUpdated ["MeosInfoService"]; Source.OnModified; Source.Update]
           "123" []).
  rewrite !not_elem_of_cons. repeat split; try discriminate. apply not_elem_of_nil.
Defined.
